(** * The [process] subcommand of [src/main.py]

    A shallow embedding of [validate_item], [process_file] and [main], and
    the properties of the validation-and-aggregation pipeline.

    Decoded JSON is a Python value: [None], [bool], [int] (unbounded),
    [float] (IEEE binary64), [str] (a sequence of Unicode code points),
    [list] and [dict] with [str] keys.  Exceptions are an error monad. *)

From Stdlib Require Import ZArith Floats String Ascii Lia.
From stdpp Require Import gmap strings list.

Local Open Scope Z_scope.

(** ** Python values and the host operations the program uses *)

Module Py.

(** A Python [str]: its code points. *)
Abbreviation str := (list N).

(** A literal of the source text (all of them are ASCII). *)
Definition lit (s : string) : str :=
  N_of_ascii <$> list_ascii_of_string s.
Arguments lit : simpl never.

#[warnings="-register-all"]
Inductive value :=
| PyNone
| PyBool (b : bool)
| PyInt (z : Z)
| PyFloat (f : float)
| PyStr (s : str)
| PyList (l : list value)
| PyDict (d : gmap str value).

(** Exceptions, each with the text that [str(exc)] gives. *)
Inductive exn :=
| ValueError (msg : str)
| TypeError (msg : str)
| KeyError (msg : str)
| AttributeError (msg : str)
| OverflowError (msg : str)
| ZeroDivisionError (msg : str)
| FileNotFoundError (msg : str)
| JSONDecodeError (msg : str)
| OtherException (msg : str).

Definition exn_str (e : exn) : str :=
  match e with
  | ValueError m | TypeError m | KeyError m | AttributeError m
  | OverflowError m | ZeroDivisionError m | FileNotFoundError m
  | JSONDecodeError m | OtherException m => m
  end.

(** A computation that returns or raises. *)
Inductive result (A : Type) :=
| Ok (a : A)
| Raise (e : exn).
Arguments Ok {A} a.
Arguments Raise {A} e.

#[global] Instance result_ret : MRet result := @Ok.
#[global] Instance result_bind : MBind result := λ A B f m,
  match m with
  | Ok a => f a
  | Raise e => Raise e
  end.

(** [if c: raise e] *)
Definition raise_if (c : bool) (e : exn) : result () :=
  if c then Raise e else Ok ().

Definition type_name (v : value) : str :=
  match v with
  | PyNone => lit "NoneType"
  | PyBool _ => lit "bool"
  | PyInt _ => lit "int"
  | PyFloat _ => lit "float"
  | PyStr _ => lit "str"
  | PyList _ => lit "list"
  | PyDict _ => lit "dict"
  end.

(** [isinstance(v, int)]: [bool] is a subclass of [int]. *)
Definition isinstance_int (v : value) : bool :=
  match v with
  | PyInt _ | PyBool _ => true
  | _ => false
  end.

Definition isinstance_float (v : value) : bool :=
  match v with
  | PyFloat _ => true
  | _ => false
  end.

Definition isinstance_str (v : value) : bool :=
  match v with
  | PyStr _ => true
  | _ => false
  end.

(** [str.isspace] on one code point (CPython's [_PyUnicode_IsWhitespace]). *)
Definition isspace (c : N) : bool :=
  (((9 <=? c) && (c <=? 13)) || ((28 <=? c) && (c <=? 32))
   || (c =? 133) || (c =? 160) || (c =? 5760)
   || ((8192 <=? c) && (c <=? 8202))
   || (c =? 8232) || (c =? 8233) || (c =? 8239) || (c =? 8287)
   || (c =? 12288))%N.

Fixpoint dropwhile {A} (p : A → bool) (l : list A) : list A :=
  match l with
  | [] => []
  | x :: l' => if p x then dropwhile p l' else l
  end.

Definition lstrip (s : str) : str := dropwhile isspace s.
Definition rstrip (s : str) : str := reverse (dropwhile isspace (reverse s)).

(** [s.strip()] with no argument. *)
Definition strip (s : str) : str := rstrip (lstrip s).

(** [v.strip()]: only a [str] has the method. *)
Definition method_strip (v : value) : result str :=
  match v with
  | PyStr s => Ok (strip s)
  | _ => Raise (AttributeError (lit "'" ++ type_name v
                                  ++ lit "' object has no attribute 'strip'"))
  end.

(** Truth value of a [str]: non-empty. *)
Definition str_bool (s : str) : bool :=
  match s with
  | [] => false
  | _ => true
  end.

(** [k in d] for a dict [d]. *)
Definition dict_contains (d : gmap str value) (k : str) : bool :=
  match d !! k with
  | Some _ => true
  | None => false
  end.

(** [v[k]] for a [str] key [k]. *)
Definition getitem (v : value) (k : str) : result value :=
  match v with
  | PyDict d =>
      match d !! k with
      | Some x => Ok x
      | None => Raise (KeyError (lit "'" ++ k ++ lit "'"))
      end
  | PyList _ => Raise (TypeError (lit "list indices must be integers or slices, not str"))
  | PyStr _ => Raise (TypeError (lit "string indices must be integers, not 'str'"))
  | _ => Raise (TypeError (lit "'" ++ type_name v ++ lit "' object is not subscriptable"))
  end.

(** [int] to [float]: the nearest binary64, ties to even; an [int] whose
    nearest binary64 is not finite raises [OverflowError]. *)
Definition int_to_float (z : Z) : result float :=
  match binary_normalize prec emax z 0 false with
  | S754_infinity _ =>
      Raise (OverflowError (lit "int too large to convert to float"))
  | sf => Ok (SF2Prim sf)
  end.

(** [float(v)].  For a [str] the host parses its text: [float_of_str]. *)
Definition float_ (float_of_str : str → result float) (v : value) : result float :=
  match v with
  | PyBool b => Ok (if b then 1%float else 0%float)
  | PyInt z => int_to_float z
  | PyFloat f => Ok f
  | PyStr s => float_of_str s
  | _ => Raise (TypeError (lit "float() argument must be a string or a real number, not '"
                             ++ type_name v ++ lit "'"))
  end.

(** [a / n] for a [float] [a] and an [int] [n]. *)
Definition float_truediv_int (a : float) (n : Z) : result float :=
  b ← int_to_float n;
  if (b =? 0)%float then Raise (ZeroDivisionError (lit "float division by zero"))
  else Ok (a / b)%float.

(** What the program takes from its host: [open] followed by [json.load]
    on a path, [float] on a [str], [json.dumps] and the parser's help. *)
Record host := Host {
  json_load : str → result value;
  float_of_str : str → result float;
  json_dumps : value → str;
  format_help : str
}.

End Py.
Import Py.

(** ** [src/main.py] *)

(** [validate_item] (lines 20-35): the checks in source order, each raising
    [ValueError]; [item["k"]] and [.strip()] keep the host's own failures,
    which the checks before them rule out. *)
Definition validate_item (item : value) : result () :=
  match item with
  | PyDict d =>
      raise_if (negb (dict_contains d (lit "id")))
        (ValueError (lit "missing field 'id'"));;
      id ← getitem item (lit "id");
      raise_if (negb (isinstance_int id))
        (ValueError (lit "field 'id' must be int"));;
      raise_if (negb (dict_contains d (lit "name")))
        (ValueError (lit "missing field 'name'"));;
      name ← getitem item (lit "name");
      bad ← (if negb (isinstance_str name) then Ok true
             else s ← method_strip name; Ok (negb (str_bool s)));
      raise_if bad
        (ValueError (lit "field 'name' must be a non-empty string"));;
      raise_if (negb (dict_contains d (lit "value")))
        (ValueError (lit "missing field 'value'"));;
      v ← getitem item (lit "value");
      raise_if (negb (isinstance_int v || isinstance_float v))
        (ValueError (lit "field 'value' must be a number"))
  | _ => Raise (ValueError (lit "item must be an object"))
  end.

Section Runner.

Variable H : host.

(** The loop of [process_file] (lines 48-51), from the running [total] and
    [count]. *)
Fixpoint process_items (data : list value) (total : float) (count : Z)
  : result (float * Z) :=
  match data with
  | [] => Ok (total, count)
  | item :: rest =>
      validate_item item;;
      v ← getitem item (lit "value");
      x ← float_ (float_of_str H) v;
      process_items rest (total + x)%float (count + 1)
  end.

(** The dict that [process_file] returns. *)
Definition summary (count : Z) (total avg : float) : value :=
  PyDict (<[lit "count" := PyInt count]>
         (<[lit "total_value" := PyFloat total]>
         (<[lit "avg_value" := PyFloat avg]> ∅))).

(** [process_file] (lines 38-54). *)
Definition process_file (path : str) : result value :=
  data ← json_load H path;
  match data with
  | PyList items =>
      '(total, count) ← process_items items 0%float 0;
      avg ← (if bool_decide (count ≠ 0) then float_truediv_int total count
             else Ok 0%float);
      Ok (summary count total avg)
  | _ => Raise (ValueError (lit "input JSON must be a list"))
  end.

(** The parsed command line. *)
Record namespace := Namespace { command : str; input : str }.

(** What a run leaves behind: the exit code and, per stream, the text of
    each [print] call (one line each). *)
Record outcome := Outcome {
  exit_code : Z;
  stdout : list str;
  stderr : list str
}.

(** [main] (lines 66-81), from the parsed arguments on. *)
Definition main (args : namespace) : outcome :=
  if bool_decide (command args = lit "process") then
    match process_file (input args) with
    | Ok s => Outcome 0 [json_dumps H s] []
    | Raise exc => Outcome 1 [] [lit "Error: " ++ exn_str exc]
    end
  else Outcome 2 [format_help H] [].

End Runner.

(** ** Vocabulary of the specification *)

(** The value a candidate holds at a key, when it is a mapping that has it. *)
Definition field (item : value) (k : str) : option value :=
  match item with
  | PyDict d => d !! k
  | _ => None
  end.

(** Whether a candidate is a mapping that has the key. *)
Definition present (item : value) (k : str) : bool :=
  match field item k with
  | Some _ => true
  | None => false
  end.

(** A number in the validator's sense: [isinstance(v, (int, float))]. *)
Definition is_number (v : value) : bool :=
  isinstance_int v || isinstance_float v.

(** A mapping with a valid [id], [name] and [value], whatever else it holds. *)
Definition has_valid_fields (item : value) : Prop :=
  ∃ id s v,
    field item (lit "id") = Some id ∧ isinstance_int id = true
    ∧ field item (lit "name") = Some (PyStr s) ∧ strip s ≠ []
    ∧ field item (lit "value") = Some v ∧ is_number v = true.

(** The checks of the Validator, in the order the specification fixes. *)
Inductive check :=
| IsObject
| IdPresent
| IdType
| NamePresent
| NameType
| NameContent
| ValuePresent
| ValueType.

Definition check_order : list check :=
  [IsObject; IdPresent; IdType; NamePresent; NameType; NameContent;
   ValuePresent; ValueType].

(** Whether a candidate passes one check taken alone.  A type or content
    check has no subject when the field is absent (or, for the content of
    [name], not a string): [absent] is the verdict given then. *)
Definition passes (absent : bool) (c : check) (item : value) : bool :=
  match c with
  | IsObject => match item with PyDict _ => true | _ => false end
  | IdPresent => present item (lit "id")
  | IdType =>
      match field item (lit "id") with
      | Some v => isinstance_int v
      | None => absent
      end
  | NamePresent => present item (lit "name")
  | NameType =>
      match field item (lit "name") with
      | Some v => isinstance_str v
      | None => absent
      end
  | NameContent =>
      match field item (lit "name") with
      | Some (PyStr s) => str_bool (strip s)
      | _ => absent
      end
  | ValuePresent => present item (lit "value")
  | ValueType =>
      match field item (lit "value") with
      | Some v => is_number v
      | None => absent
      end
  end.

(** The failure each check reports. *)
Definition check_error (c : check) : exn :=
  match c with
  | IsObject => ValueError (lit "item must be an object")
  | IdPresent => ValueError (lit "missing field 'id'")
  | IdType => ValueError (lit "field 'id' must be int")
  | NamePresent => ValueError (lit "missing field 'name'")
  | NameType | NameContent =>
      ValueError (lit "field 'name' must be a non-empty string")
  | ValuePresent => ValueError (lit "missing field 'value'")
  | ValueType => ValueError (lit "field 'value' must be a number")
  end.

(** The float an element adds to the total: its [value] field under
    [float()]. *)
Definition coerces (H : host) (item : value) (x : float) : Prop :=
  ∃ v, field item (lit "value") = Some v ∧ float_ (float_of_str H) v = Ok x.

(** The binary64 nearest to an [int], ties to even. *)
Definition nearest_float (z : Z) : float :=
  SF2Prim (binary_normalize prec emax z 0 false).

(** The sum of floats in list order, from [0.0]. *)
Definition float_sum (xs : list float) : float :=
  foldl PrimFloat.add 0%float xs.

(** A host whose every path holds the given decoded document; its other
    components are placeholders. *)
Definition host_of (data : value) : host :=
  Host (λ _, Ok data) (λ _, Raise (ValueError (lit "could not convert string to float")))
       (λ _, lit "{}") (lit "usage: main").

(** A mapping with exactly the three fields, and the record it makes. *)
Definition fields (id name v : value) : gmap str value :=
  <[lit "id" := id]> (<[lit "name" := name]> (<[lit "value" := v]> ∅)).

Definition record (id name v : value) : value :=
  PyDict (fields id name v).

(** A mapping that lacks [value]. *)
Definition fields_without_value : value :=
  PyDict (<[lit "id" := PyInt 2]> (<[lit "name" := PyStr (lit "missing value")]> ∅)).

(** An integer too large for a binary64. *)
Definition huge : Z := 10 ^ 400.

(** The command line [process --input data.json]. *)
Definition process_args : namespace :=
  Namespace (lit "process") (lit "data.json").



(** A host on which no file can be opened. *)
Definition host_without_files : host :=
  Host (λ p, Raise (FileNotFoundError
                      (lit "[Errno 2] No such file or directory: '" ++ p ++ lit "'")))
       (float_of_str (host_of PyNone)) (json_dumps (host_of PyNone))
       (format_help (host_of PyNone)).

(** ** Facts about the host operations *)

Section StripFacts.

Context {A : Type} (p : A → bool).

Lemma dropwhile_nil_iff (l : list A) :
  dropwhile p l = [] ↔ Forall (λ x, p x = true) l.
Proof.
  induction l as [|x l IH]; simpl.
  - split; [constructor|done].
  - destruct (p x) eqn:Hx.
    + rewrite IH. split; [by constructor|by inversion 1].
    + split; [done|]. inversion 1; congruence.
Qed.

Lemma dropwhile_suffix (l : list A) :
  ∃ k, l = k ++ dropwhile p l ∧ Forall (λ x, p x = true) k.
Proof.
  induction l as [|x l (k & E & Hk)]; simpl.
  - by exists [].
  - destruct (p x) eqn:Hx.
    + exists (x :: k). split; [by rewrite <- app_comm_cons, <- E|by constructor].
    + by exists [].
Qed.

End StripFacts.

(** Trimming leaves nothing exactly when every code point is whitespace. *)
Lemma strip_nil_iff (s : str) :
  strip s = [] ↔ Forall (λ c, isspace c = true) s.
Proof.
  unfold strip, rstrip, lstrip.
  destruct (dropwhile_suffix isspace s) as (k & E & Hk).
  set (t := dropwhile isspace s) in *.
  split.
  - intros Hnil.
    assert (dropwhile isspace (reverse t) = []) as Hr.
    { apply (f_equal reverse) in Hnil. by rewrite reverse_involutive in Hnil. }
    apply dropwhile_nil_iff in Hr.
    rewrite E. apply Forall_app. split; [done|].
    rewrite <- (reverse_involutive t). by apply Forall_reverse.
  - intros Hall.
    assert (t = []) as -> by (by apply dropwhile_nil_iff).
    done.
Qed.

Lemma str_bool_true_iff (s : str) : str_bool s = true ↔ s ≠ [].
Proof. by destruct s. Qed.

(** *** Conversion of an [int] to [float] *)

Lemma digits2_pos_bounds (p : positive) :
  2 ^ (Z.pos (digits2_pos p) - 1) ≤ Z.pos p < 2 ^ Z.pos (digits2_pos p).
Proof.
  induction p as [p IH|p IH|]; simpl digits2_pos.
  - rewrite Pos2Z.inj_succ.
    replace (Z.succ (Z.pos (digits2_pos p)) - 1)
      with (Z.succ (Z.pos (digits2_pos p) - 1)) by lia.
    rewrite !Z.pow_succ_r by lia. lia.
  - rewrite Pos2Z.inj_succ.
    replace (Z.succ (Z.pos (digits2_pos p)) - 1)
      with (Z.succ (Z.pos (digits2_pos p) - 1)) by lia.
    rewrite !Z.pow_succ_r by lia. lia.
  - simpl. lia.
Qed.

Lemma digits2_pos_unique (p : positive) (d : Z) :
  2 ^ (d - 1) ≤ Z.pos p < 2 ^ d → Z.pos (digits2_pos p) = d.
Proof.
  intros [Hlo Hhi]. pose proof (digits2_pos_bounds p) as [Blo Bhi].
  destruct (Z.lt_trichotomy (Z.pos (digits2_pos p)) d) as [Hlt|[->|Hgt]]; [|done|].
  - assert (2 ^ Z.pos (digits2_pos p) ≤ 2 ^ (d - 1))
      by (apply Z.pow_le_mono_r; lia).
    lia.
  - destruct (Z.le_gt_cases 0 d) as [Hd|Hd].
    + assert (2 ^ d ≤ 2 ^ (Z.pos (digits2_pos p) - 1))
        by (apply Z.pow_le_mono_r; lia).
      lia.
    + rewrite (Z.pow_neg_r 2 d) in Hhi by lia. lia.
Qed.

Lemma shr_1_m (mrs : shr_record) :
  0 ≤ shr_m mrs → shr_m (shr_1 mrs) = shr_m mrs / 2.
Proof.
  destruct mrs as [m r s]. simpl. intros Hm.
  destruct m as [|[p|p|]|p]; simpl shr_m; try lia; try done.
  - apply Z.div_unique with (r := 1); lia.
  - apply Z.div_unique with (r := 0); lia.
Qed.

Lemma iter_shr_1_m (k : positive) (mrs : shr_record) :
  0 ≤ shr_m mrs →
  shr_m (SpecFloat.iter_pos shr_1 k mrs) = shr_m mrs / 2 ^ Z.pos k.
Proof.
  revert mrs. induction k as [k IH|k IH|]; intros mrs Hm;
    simpl SpecFloat.iter_pos.
  - assert (0 ≤ shr_m (shr_1 mrs))
      by (rewrite shr_1_m by done; apply Z.div_pos; lia).
    assert (0 ≤ shr_m (SpecFloat.iter_pos shr_1 k (shr_1 mrs))).
    { rewrite IH by done. apply Z.div_pos; lia. }
    rewrite IH, IH, shr_1_m by done.
    rewrite !Z.div_div by lia.
    f_equal. replace (Z.pos k~1) with (1 + (Z.pos k + Z.pos k)) by lia.
    rewrite !Z.pow_add_r by lia. change (2 ^ 1) with 2. lia.
  - assert (0 ≤ shr_m (SpecFloat.iter_pos shr_1 k mrs)).
    { rewrite IH by done. apply Z.div_pos; lia. }
    rewrite IH, IH by done. rewrite Z.div_div by lia.
    f_equal. replace (Z.pos k~0) with (Z.pos k + Z.pos k) by lia.
    rewrite Z.pow_add_r by lia. done.
  - rewrite shr_1_m by done. done.
Qed.

Lemma fexp_mid (e : Z) : -1021 ≤ e → fexp prec emax e = e - 53.
Proof. unfold fexp, emin, prec, emax. lia. Qed.

Lemma shr_spec (m e n : Z) :
  0 ≤ m → 0 ≤ n →
  ∃ mrs, shr (shr_record_of_loc m loc_Exact) e n = (mrs, e + n)
         ∧ shr_m mrs = m / 2 ^ n.
Proof.
  intros Hm Hn. destruct n as [|k|k]; [| |lia].
  - eexists. split; [simpl; by rewrite Z.add_0_r|]. simpl. by rewrite Z.div_1_r.
  - eexists. split; [done|]. by rewrite iter_shr_1_m.
Qed.

Lemma round_nearest_even_bounds (m : Z) (l : location) :
  m ≤ round_nearest_even m l ≤ m + 1.
Proof.
  unfold round_nearest_even. destruct l as [|[]]; try lia.
  destruct (Z.even m); lia.
Qed.

Lemma valid_53_digits (m : positive) (e : Z) :
  2 ^ 52 ≤ Z.pos m < 2 ^ 53 → -1074 ≤ e ≤ 971 →
  valid_binary (S754_finite false m e) = true.
Proof.
  intros Hm He.
  unfold valid_binary, SpecFloat.valid_binary, bounded, canonical_mantissa.
  rewrite (digits2_pos_unique m 53) by done.
  rewrite fexp_mid by lia.
  apply andb_true_iff. split; [apply Z.eqb_eq; lia|].
  apply Z.leb_le. unfold emax, prec. lia.
Qed.

(** The second rounding step, on a mantissa that has 53 digits or is 2^53. *)
Lemma binary_round_aux_renorm (m1 e1 : Z) :
  2 ^ 52 ≤ m1 ≤ 2 ^ 53 → -1000 ≤ e1 ≤ 900 →
  ∃ m e,
    (let '(mrs, e2) := shr (shr_record_of_loc m1 loc_Exact) e1
                         (fexp prec emax (Zdigits2 m1 + e1) - e1) in
     match shr_m mrs with
     | 0 => S754_zero false
     | Z.pos m0 => if e2 <=? emax - prec then S754_finite false m0 e2
                   else S754_infinity false
     | Z.neg _ => S754_nan
     end) = S754_finite false m e
    ∧ valid_binary (S754_finite false m e) = true.
Proof.
  intros Hm He.
  destruct m1 as [|p|p]; [lia| |lia].
  destruct (Z.eq_dec (Z.pos p) (2 ^ 53)) as [Heq|Hne].
  - assert (p = 9007199254740992%positive) as -> by lia.
    change (Zdigits2 (Z.pos 9007199254740992)) with 54.
    rewrite fexp_mid by lia.
    replace (54 + e1 - 53 - e1) with 1 by lia.
    exists 4503599627370496%positive, (e1 + 1).
    cbv [shr shr_record_of_loc SpecFloat.iter_pos shr_1 shr_m orb].
    replace (e1 + 1 <=? emax - prec) with true
      by (symmetry; apply Z.leb_le; unfold emax, prec; lia).
    split; [done|]. apply valid_53_digits; lia.
  - simpl Zdigits2. rewrite (digits2_pos_unique p 53) by lia.
    rewrite fexp_mid by lia.
    replace (53 + e1 - 53 - e1) with 0 by lia.
    exists p, e1.
    cbv [shr shr_record_of_loc shr_m].
    replace (e1 <=? emax - prec) with true
      by (symmetry; apply Z.leb_le; unfold emax, prec; lia).
    split; [done|]. apply valid_53_digits; lia.
Qed.

(** Rounding a mantissa of 53 to 64 digits gives a finite, valid binary64. *)
Lemma binary_round_aux_finite (mx : positive) (ex : Z) :
  2 ^ 52 ≤ Z.pos mx < 2 ^ 64 → -100 ≤ ex ≤ 100 →
  ∃ m e, binary_round_aux prec emax false (Z.pos mx) ex loc_Exact
         = S754_finite false m e
         ∧ valid_binary (S754_finite false m e) = true.
Proof.
  intros Hmx Hex.
  pose proof (digits2_pos_bounds mx) as Hd.
  set (D := Z.pos (digits2_pos mx)) in *.
  assert (53 ≤ D ≤ 64) as HD.
  { split.
    - destruct (Z.le_gt_cases 53 D); [done|].
      assert (2 ^ D ≤ 2 ^ 52) by (apply Z.pow_le_mono_r; lia). lia.
    - destruct (Z.le_gt_cases D 64); [done|].
      assert (2 ^ 64 ≤ 2 ^ (D - 1)) by (apply Z.pow_le_mono_r; lia). lia. }
  unfold binary_round_aux, shr_fexp.
  change (Zdigits2 (Z.pos mx)) with D.
  rewrite fexp_mid by lia.
  destruct (shr_spec (Z.pos mx) ex (D + ex - 53 - ex))
    as (mrs & -> & Hmrs); [lia..|].
  replace (D + ex - 53 - ex) with (D - 53) in * by lia.
  assert (2 ^ 52 ≤ shr_m mrs < 2 ^ 53) as Hm'.
  { rewrite Hmrs.
    assert (2 ^ D = 2 ^ (D - 53) * 2 ^ 53) as E1
      by (rewrite <- Z.pow_add_r by lia; f_equal; lia).
    assert (2 ^ (D - 1) = 2 ^ (D - 53) * 2 ^ 52) as E2
      by (rewrite <- Z.pow_add_r by lia; f_equal; lia).
    assert (0 < 2 ^ (D - 53)) by (apply Z.pow_pos_nonneg; lia).
    split.
    - apply Z.div_le_lower_bound; lia.
    - apply Z.div_lt_upper_bound; lia. }
  pose proof (round_nearest_even_bounds (shr_m mrs) (loc_of_shr_record mrs)).
  apply binary_round_aux_renorm; lia.
Qed.

Lemma iter_xO_pos (k p : positive) :
  Z.pos (Pos.iter xO p k) = Z.pos p * 2 ^ Z.pos k.
Proof.
  induction k as [|k IH] using Pos.peano_ind.
  - simpl. lia.
  - rewrite Pos.iter_succ, Pos2Z.inj_succ, Z.pow_succ_r by lia. lia.
Qed.

(** A positive [int] below 2^63 rounds to a finite, valid binary64. *)
Lemma binary_normalize_finite (z : Z) :
  0 < z < 2 ^ 63 →
  ∃ m e, binary_normalize prec emax z 0 false = S754_finite false m e
         ∧ valid_binary (S754_finite false m e) = true.
Proof.
  intros Hz. destruct z as [|p|p]; [lia| |lia].
  unfold binary_normalize, binary_round, shl_align.
  pose proof (digits2_pos_bounds p) as Hd.
  set (D := Z.pos (digits2_pos p)) in *.
  assert (1 ≤ D ≤ 63) as HD.
  { split; [lia|]. destruct (Z.le_gt_cases D 63); [done|].
    assert (2 ^ 63 ≤ 2 ^ (D - 1)) by (apply Z.pow_le_mono_r; lia). lia. }
  rewrite Z.add_0_r, fexp_mid, Z.sub_0_r by lia.
  destruct (D - 53) as [|k|k] eqn:Hk.
  - apply binary_round_aux_finite; [|lia].
    replace D with 53 in Hd by lia. simpl in Hd. lia.
  - apply binary_round_aux_finite; [|lia].
    assert (2 ^ 52 ≤ 2 ^ (D - 1)) by (apply Z.pow_le_mono_r; lia). lia.
  - apply binary_round_aux_finite; [|lia].
    rewrite iter_xO_pos.
    assert (2 ^ (D - 1) * 2 ^ Z.pos k = 2 ^ 52) as E1
      by (rewrite <- Z.pow_add_r by lia; f_equal; lia).
    assert (2 ^ D * 2 ^ Z.pos k = 2 ^ 53) as E2
      by (rewrite <- Z.pow_add_r by lia; f_equal; lia).
    assert (0 < 2 ^ Z.pos k) by (apply Z.pow_pos_nonneg; lia).
    nia.
Qed.

(** The count of a list that fits in memory converts to a non-zero float:
    dividing by it neither overflows nor divides by zero. *)
Lemma float_truediv_count (a : float) (n : Z) :
  0 < n < 2 ^ 63 →
  float_truediv_int a n = Ok (a / nearest_float n)%float.
Proof.
  intros Hn. destruct (binary_normalize_finite n Hn) as (m & e & E & Hv).
  unfold float_truediv_int, int_to_float, nearest_float. rewrite E.
  cbn [mbind result_bind].
  rewrite FloatAxioms.eqb_spec, Prim2SF_SF2Prim by done. done.
Qed.

(** ** The Validator *)

(** [validate_item] on a mapping, as a decision tree over its three fields. *)
Lemma validate_item_dict (d : gmap str value) :
  validate_item (PyDict d) =
    match d !! lit "id" with
    | None => Raise (check_error IdPresent)
    | Some id =>
        if isinstance_int id then
          match d !! lit "name" with
          | None => Raise (check_error NamePresent)
          | Some (PyStr s) =>
              if str_bool (strip s) then
                match d !! lit "value" with
                | None => Raise (check_error ValuePresent)
                | Some v =>
                    if is_number v then Ok ()
                    else Raise (check_error ValueType)
                end
              else Raise (check_error NameContent)
          | Some _ => Raise (check_error NameType)
          end
        else Raise (check_error IdType)
    end.
Proof.
  unfold validate_item, dict_contains, getitem, is_number.
  destruct (d !! lit "id") as [id|]; [|done].
  cbn [negb raise_if mbind result_bind].
  destruct (isinstance_int id); [|done].
  cbn [negb raise_if mbind result_bind].
  destruct (d !! lit "name") as [name|]; [|done].
  cbn [negb raise_if mbind result_bind].
  destruct name; try done.
  cbn [isinstance_str method_strip negb raise_if mbind result_bind].
  destruct (str_bool (strip s)); [|done].
  cbn [negb raise_if mbind result_bind].
  destruct (d !! lit "value") as [v|]; [|done].
  cbn [negb raise_if mbind result_bind].
  by destruct (isinstance_int v || isinstance_float v).
Qed.

(** Acceptance is exactly having the three valid fields. *)
Lemma validate_item_Ok_iff (item : value) :
  validate_item item = Ok () ↔ has_valid_fields item.
Proof.
  unfold has_valid_fields. split.
  - destruct item as [| | | | | |d]; try done.
    rewrite validate_item_dict. simpl field.
    destruct (d !! lit "id") as [id|]; [|done].
    destruct (isinstance_int id) eqn:Hid; [|done].
    destruct (d !! lit "name") as [[| | | |s| |]|]; try done.
    destruct (str_bool (strip s)) eqn:Hs; [|done].
    destruct (d !! lit "value") as [v|]; [|done].
    destruct (is_number v) eqn:Hv; [|done].
    intros _. exists id, s, v. by rewrite <- str_bool_true_iff.
  - intros (id & s & v & Hid & Tid & Hname & Hs & Hv & Tv).
    destruct item as [| | | | | |d]; try done. cbn [field] in *.
    rewrite validate_item_dict, Hid, Tid, Hname, Hv, Tv.
    apply str_bool_true_iff in Hs. by rewrite Hs.
Qed.

Lemma isinstance_int_iff (v : value) :
  isinstance_int v = true ↔ (∃ z, v = PyInt z) ∨ (∃ b, v = PyBool b).
Proof.
  destruct v; simpl; split; try done; eauto.
  all: by intros [[? [=]]|[? [=]]].
Qed.

(** Two checks with different diagnostics are told apart by the failure. *)
Ltac distinct_failure := vm_compute; intros [=].

(** Walks the decision tree of [validate_item] down to its leaves. *)
Ltac validate_leaves := rewrite validate_item_dict; repeat case_match.

(** Every failure of [validate_item] is the failure of one of the checks. *)
Lemma validate_item_failure (item : value) (e : exn) :
  validate_item item = Raise e → ∃ c, e = check_error c.
Proof.
  destruct item as [| | | | | |d];
    try (intros [= <-]; by exists IsObject).
  rewrite validate_item_dict. intros Hr.
  repeat case_match; try discriminate Hr; injection Hr as <-;
    first [ by exists IdPresent | by exists IdType | by exists NamePresent
          | by exists NameContent | by exists ValuePresent
          | by exists ValueType ].
Qed.

Lemma validate_item_id_rejected (d : gmap str value) (v : value) :
  d !! lit "id" = Some v → isinstance_int v = false →
  validate_item (PyDict d) = Raise (check_error IdType).
Proof. intros Hid Hv. by rewrite validate_item_dict, Hid, Hv. Qed.

Lemma validate_item_id_passed (d : gmap str value) (v : value) :
  d !! lit "id" = Some v → isinstance_int v = true →
  validate_item (PyDict d) ≠ Raise (check_error IdType).
Proof.
  intros Hid Hv. validate_leaves; try congruence; distinct_failure.
Qed.

Lemma validate_item_name_rejected (d : gmap str value) (id v : value) :
  d !! lit "id" = Some id → isinstance_int id = true →
  d !! lit "name" = Some v →
  (∀ s, v = PyStr s → strip s = []) →
  validate_item (PyDict d) = Raise (check_error NameContent).
Proof.
  intros Hid Tid Hname Hv. rewrite validate_item_dict, Hid, Tid, Hname.
  destruct v as [| | | |s| |]; try done.
  by rewrite (Hv s eq_refl).
Qed.

Lemma validate_item_name_passed (d : gmap str value) (s : str) :
  d !! lit "name" = Some (PyStr s) → strip s ≠ [] →
  validate_item (PyDict d) ≠ Raise (check_error NameContent).
Proof.
  intros Hname Hs. apply str_bool_true_iff in Hs.
  validate_leaves; try congruence; distinct_failure.
Qed.

(** C2 as stated fails: a boolean [id] passes validation. *)
Lemma validate_item_id_bool_accepted :
  validate_item (record (PyBool true) (PyStr (lit "a")) (PyInt 1)) = Ok ()
  ∧ validate_item (record (PyBool true) (PyStr (lit "a")) (PyInt 1))
    ≠ Raise (ValueError (lit "field 'id' must be int")).
Proof. split; [vm_compute; reflexivity|vm_compute; discriminate]. Qed.

(** C2 (amended): for a mapping that has key [id], the [id] check rejects,
    with the wrong-type error for [id], exactly the values that are neither
    an integer nor a boolean; a float is rejected, and a boolean, being an
    [int] for the host, is let through to the later checks. *)
Theorem validate_item_id_type (d : gmap str value) (v : value) :
  d !! lit "id" = Some v →
  (validate_item (PyDict d) = Raise (ValueError (lit "field 'id' must be int"))
   ↔ ¬ ((∃ z, v = PyInt z) ∨ (∃ b, v = PyBool b)))
  ∧ (∀ f, v = PyFloat f →
       validate_item (PyDict d) = Raise (ValueError (lit "field 'id' must be int")))
  ∧ (∀ b, v = PyBool b →
       validate_item (PyDict d) ≠ Raise (ValueError (lit "field 'id' must be int"))).
Proof.
  intros Hid. change (ValueError (lit "field 'id' must be int"))
    with (check_error IdType).
  split; [|split].
  - rewrite <- isinstance_int_iff. split.
    + intros Hr Hv. by apply (validate_item_id_passed d v).
    + intros Hv. apply (validate_item_id_rejected d v Hid).
      by destruct (isinstance_int v).
  - intros f ->. by apply (validate_item_id_rejected d (PyFloat f)).
  - intros b ->. by apply (validate_item_id_passed d (PyBool b)).
Qed.

Lemma validate_item_id_type_witness :
  fields (PyFloat 1.5) (PyStr (lit "test")) (PyFloat 10.5) !! lit "id"
    = Some (PyFloat 1.5)
  ∧ validate_item (record (PyFloat 1.5) (PyStr (lit "test")) (PyFloat 10.5))
    = Raise (ValueError (lit "field 'id' must be int")).
Proof.
  assert (fields (PyFloat 1.5) (PyStr (lit "test")) (PyFloat 10.5) !! lit "id"
          = Some (PyFloat 1.5)) as Hid by (vm_compute; reflexivity).
  split; [exact Hid|].
  exact (proj1 (proj2 (validate_item_id_type _ _ Hid)) 1.5%float eq_refl).
Defined.

(** C3: whichever checks a candidate fails, [validate_item] reports the
    first failing one in the order object-shape, [id] presence, [id] type,
    [name] presence, [name] type, [name] non-emptiness, [value] presence,
    [value] type, and accepts when none fails.  A check without a subject
    always comes after the one that finds the subject missing, so the
    verdict [absent] it is given does not matter. *)
Theorem validate_item_first_failing_check (absent : bool) (item : value) :
  validate_item item =
    match find (λ c, negb (passes absent c item)) check_order with
    | Some c => Raise (check_error c)
    | None => Ok ()
    end.
Proof.
  destruct item as [| | | | | |d]; try reflexivity.
  rewrite validate_item_dict. unfold check_order, passes, present.
  cbn [find field negb].
  destruct (d !! lit "id") as [id|]; cbn [negb]; [|reflexivity].
  destruct (isinstance_int id); cbn [negb]; [|reflexivity].
  destruct (d !! lit "name") as [name|]; cbn [negb]; [|reflexivity].
  destruct name as [| | | |s| |]; cbn [negb isinstance_str]; try reflexivity.
  destruct (str_bool (strip s)); cbn [negb]; [|reflexivity].
  destruct (d !! lit "value") as [v|]; cbn [negb]; [|reflexivity].
  destruct (is_number v); reflexivity.
Qed.

(** C7: for a mapping that has key [name] (and an [id] that passed), the
    [name] check succeeds exactly when the value is a string that is
    non-empty once trimmed; a non-string, the empty string and a string of
    whitespace only each fail with the error for [name]. *)
Theorem validate_item_name (d : gmap str value) (id v : value) :
  d !! lit "id" = Some id → isinstance_int id = true →
  d !! lit "name" = Some v →
  (validate_item (PyDict d)
     ≠ Raise (ValueError (lit "field 'name' must be a non-empty string"))
   ↔ ∃ s, v = PyStr s ∧ strip s ≠ [])
  ∧ ((∀ s, v ≠ PyStr s) →
     validate_item (PyDict d)
       = Raise (ValueError (lit "field 'name' must be a non-empty string")))
  ∧ (v = PyStr [] →
     validate_item (PyDict d)
       = Raise (ValueError (lit "field 'name' must be a non-empty string")))
  ∧ (∀ s, v = PyStr s → Forall (λ c, isspace c = true) s →
     validate_item (PyDict d)
       = Raise (ValueError (lit "field 'name' must be a non-empty string"))).
Proof.
  intros Hid Tid Hname.
  change (ValueError (lit "field 'name' must be a non-empty string"))
    with (check_error NameContent).
  split; [|split; [|split]].
  - split.
    + intros Hr. destruct v as [| | | |s| |];
        try (destruct Hr; by apply (validate_item_name_rejected d id _ Hid Tid Hname)).
      exists s. split; [done|]. intros Hs. apply Hr.
      apply (validate_item_name_rejected d id _ Hid Tid Hname).
      by intros ? [= <-].
    + intros (s & -> & Hs). by apply (validate_item_name_passed d s).
  - intros Hv. apply (validate_item_name_rejected d id v Hid Tid Hname).
    intros s ->. by destruct (Hv s).
  - intros ->. apply (validate_item_name_rejected d id _ Hid Tid Hname).
    by intros ? [= <-].
  - intros s -> Hs. apply (validate_item_name_rejected d id _ Hid Tid Hname).
    intros ? [= <-]. by apply strip_nil_iff.
Qed.

Lemma validate_item_name_witness :
  fields (PyInt 1) (PyStr (lit "   ")) (PyFloat 10.5) !! lit "id"
    = Some (PyInt 1)
  ∧ fields (PyInt 1) (PyStr (lit "   ")) (PyFloat 10.5) !! lit "name"
    = Some (PyStr (lit "   "))
  ∧ validate_item (record (PyInt 1) (PyStr (lit "   ")) (PyFloat 10.5))
    = Raise (ValueError (lit "field 'name' must be a non-empty string")).
Proof.
  assert (fields (PyInt 1) (PyStr (lit "   ")) (PyFloat 10.5) !! lit "id"
          = Some (PyInt 1)) as Hid by (vm_compute; reflexivity).
  assert (fields (PyInt 1) (PyStr (lit "   ")) (PyFloat 10.5) !! lit "name"
          = Some (PyStr (lit "   "))) as Hname by (vm_compute; reflexivity).
  split; [exact Hid|split; [exact Hname|]].
  refine (proj2 (proj2 (proj2
    (validate_item_name _ _ _ Hid eq_refl Hname))) (lit "   ") eq_refl _).
  vm_compute. repeat constructor.
Defined.

(** ** The Runner *)

Section RunnerFacts.

Variable H : host.

(** One turn of the loop on an element that validates. *)
Lemma process_items_valid_step (item v : value) (rest : list value)
    (total : float) (count : Z) :
  validate_item item = Ok () →
  field item (lit "value") = Some v →
  process_items H (item :: rest) total count =
    x ← float_ (float_of_str H) v;
    process_items H rest (total + x)%float (count + 1).
Proof.
  intros Hok Hv. destruct item as [| | | | | |d]; try done.
  cbn [process_items]. rewrite Hok. cbn [field] in Hv.
  cbn [mbind result_bind getitem]. by rewrite Hv.
Qed.

(** One turn of the loop on an element that does not. *)
Lemma process_items_invalid_step (item : value) (rest : list value)
    (total : float) (count : Z) (e : exn) :
  validate_item item = Raise e →
  process_items H (item :: rest) total count = Raise e.
Proof. intros Hbad. cbn [process_items]. by rewrite Hbad. Qed.

(** The [float()] of a validated [value] does not involve the host. *)
Lemma float_number (fs fs' : str → result float) (v : value) :
  is_number v = true → float_ fs v = float_ fs' v.
Proof. by destruct v. Qed.

(** The loop over a prefix of elements that validate and convert. *)
Lemma process_items_prefix (pre rest : list value) (xs : list float)
    (total : float) (count : Z) :
  Forall (λ item, validate_item item = Ok ()) pre →
  Forall2 (coerces H) pre xs →
  process_items H (pre ++ rest) total count =
    process_items H rest (foldl PrimFloat.add total xs)
      (count + Z.of_nat (length pre)).
Proof.
  intros Hvalid Hxs. revert total count Hvalid.
  induction Hxs as [|item x pre xs (v & Hv & Hx) _ IH]; intros total count Hvalid.
  - cbn [app foldl length]. by rewrite Z.add_0_r.
  - inversion_clear Hvalid as [|? ? Hitem Hpre].
    rewrite <- app_comm_cons, (process_items_valid_step item v) by done.
    rewrite Hx. cbn [mbind result_bind foldl].
    rewrite IH by done. f_equal. cbn [length]. lia.
Qed.


(** [process_file] on a path that holds a list. *)
Lemma process_file_list (path : str) (items : list value) :
  json_load H path = Ok (PyList items) →
  process_file H path =
    '(total, count) ← process_items H items 0%float 0;
    avg ← (if bool_decide (count ≠ 0) then float_truediv_int total count
           else Ok 0%float);
    Ok (summary count total avg).
Proof. intros Hload. unfold process_file. by rewrite Hload. Qed.

(** An exception of [process_file] becomes the one diagnostic of the run. *)
Lemma main_raise (args : namespace) (e : exn) :
  command args = lit "process" →
  process_file H (input args) = Raise e →
  main H args = Outcome 1 [] [lit "Error: " ++ exn_str e].
Proof.
  intros Hcmd Hr. unfold main. by rewrite bool_decide_eq_true_2, Hr.
Qed.

(** A summary of [process_file] becomes the one output line of the run. *)
Lemma main_ok (args : namespace) (s : value) :
  command args = lit "process" →
  process_file H (input args) = Ok s →
  main H args = Outcome 0 [json_dumps H s] [].
Proof.
  intros Hcmd Hr. unfold main. by rewrite bool_decide_eq_true_2, Hr.
Qed.

End RunnerFacts.

(** ** The claims on the Runner *)




(** C4 as stated fails: the list has an invalid element, but an earlier,
    valid one has a [value] beyond the floats, and the run stops there with
    [OverflowError] instead of the invalid element's validation failure. *)
Lemma process_file_overflow_before_invalid :
  let items := [record (PyInt 1) (PyStr (lit "a")) (PyInt huge); PyNone] in
  validate_item (record (PyInt 1) (PyStr (lit "a")) (PyInt huge)) = Ok ()
  ∧ validate_item PyNone = Raise (ValueError (lit "item must be an object"))
  ∧ process_file (host_of (PyList items)) (lit "data.json")
    = Raise (OverflowError (lit "int too large to convert to float"))
  ∧ process_file (host_of (PyList items)) (lit "data.json")
    ≠ Raise (ValueError (lit "item must be an object")).
Proof.
  assert (process_file
            (host_of (PyList [record (PyInt 1) (PyStr (lit "a")) (PyInt huge);
                              PyNone]))
            (lit "data.json")
          = Raise (OverflowError (lit "int too large to convert to float")))
    as Hr by (vm_compute; reflexivity).
  cbv zeta. split; [reflexivity|]. split; [reflexivity|].
  split; [exact Hr|]. rewrite Hr. distinct_failure.
Qed.

(** C4 (amended): when the list has an invalid element and the [value] of
    every element before the first such one converts to a float, the run
    stops at that element with exactly its validation failure, whatever
    follows it in the list; no summary is returned, and the run ends with
    exit code 1, the diagnostic alone on standard error and nothing on
    standard output. *)
Theorem process_file_first_invalid (H : host) (args : namespace)
    (pre rest : list value) (bad : value) (xs : list float) (e : exn) :
  command args = lit "process" →
  json_load H (input args) = Ok (PyList (pre ++ bad :: rest)) →
  Forall (λ item, validate_item item = Ok ()) pre →
  Forall2 (coerces H) pre xs →
  validate_item bad = Raise e →
  process_file H (input args) = Raise e
  ∧ main H args = Outcome 1 [] [lit "Error: " ++ exn_str e].
Proof.
  intros Hcmd Hload Hpre Hxs Hbad.
  assert (process_file H (input args) = Raise e) as Hr.
  { rewrite (process_file_list H _ _ Hload).
    rewrite (process_items_prefix H pre (bad :: rest) xs) by done.
    by rewrite (process_items_invalid_step H bad rest _ _ e). }
  split; [done|]. by apply main_raise.
Qed.

Lemma process_file_first_invalid_witness :
  main (host_of (PyList [record (PyInt 1) (PyStr (lit "valid")) (PyFloat 10);
                         fields_without_value; PyNone]))
       process_args
  = Outcome 1 [] [lit "Error: missing field 'value'"].
Proof.
  refine (proj2 (process_file_first_invalid
            (host_of (PyList [record (PyInt 1) (PyStr (lit "valid")) (PyFloat 10);
                              fields_without_value; PyNone]))
            process_args
            [record (PyInt 1) (PyStr (lit "valid")) (PyFloat 10)] [PyNone]
            fields_without_value [10%float]
            (ValueError (lit "missing field 'value'"))
            eq_refl eq_refl _ _ _)).
  - repeat constructor.
  - repeat constructor. exists (PyFloat 10). split; vm_compute; reflexivity.
  - vm_compute. reflexivity.
Defined.

(** C5: a run of the [process] subcommand ends in exactly one of two ways:
    exit code 0, the summary as the one line on standard output and nothing
    on standard error; or exit code 1, the one line [Error: <message>] on
    standard error and nothing on standard output. *)
Theorem main_binary_outcome (H : host) (args : namespace) :
  command args = lit "process" →
  ((∃ s, process_file H (input args) = Ok s
         ∧ main H args = Outcome 0 [json_dumps H s] [])
   ∨ (∃ e, process_file H (input args) = Raise e
           ∧ main H args = Outcome 1 [] [lit "Error: " ++ exn_str e]))
  ∧ (stdout (main H args) = [] ∨ stderr (main H args) = [])
  ∧ length (stdout (main H args) ++ stderr (main H args)) = 1%nat.
Proof.
  intros Hcmd.
  destruct (process_file H (input args)) as [s|e] eqn:Hr.
  - rewrite (main_ok H args s Hcmd Hr). split; [left; eauto|]. split; [by right|done].
  - rewrite (main_raise H args e Hcmd Hr). split; [right; eauto|]. split; [by left|done].
Qed.

Lemma main_binary_outcome_witness :
  stdout (main (host_of (PyList [fields_without_value])) process_args) = []
  ∨ stderr (main (host_of (PyList [fields_without_value])) process_args) = [].
Proof.
  exact (proj1 (proj2 (main_binary_outcome
           (host_of (PyList [fields_without_value])) process_args eq_refl))).
Defined.



(** C8: when the decoded content is not a list, processing fails with
    [input JSON must be a list], which is the text of the diagnostic, and
    the run exits with code 1. *)
Theorem process_file_not_a_list (H : host) (args : namespace) (data : value) :
  command args = lit "process" →
  json_load H (input args) = Ok data →
  (∀ items, data ≠ PyList items) →
  process_file H (input args) = Raise (ValueError (lit "input JSON must be a list"))
  ∧ main H args = Outcome 1 [] [lit "Error: " ++ lit "input JSON must be a list"].
Proof.
  intros Hcmd Hload Hdata.
  assert (process_file H (input args)
          = Raise (ValueError (lit "input JSON must be a list"))) as Hr.
  { unfold process_file. rewrite Hload. cbn [mbind result_bind].
    destruct data; try done. by destruct (Hdata l). }
  split; [done|]. by rewrite (main_raise H args _ Hcmd Hr).
Qed.

Lemma process_file_not_a_list_witness :
  main (host_of (record (PyInt 1) (PyStr (lit "test")) (PyInt 1))) process_args
  = Outcome 1 [] [lit "Error: input JSON must be a list"].
Proof.
  refine (proj2 (process_file_not_a_list
            (host_of (record (PyInt 1) (PyStr (lit "test")) (PyInt 1)))
            process_args (record (PyInt 1) (PyStr (lit "test")) (PyInt 1))
            eq_refl eq_refl _)).
  intros items. discriminate.
Defined.

(** C9: in a mapping whose [id] is an integer proper and whose [name] is a
    string non-empty once trimmed, a boolean at [value] is accepted as a
    number, and the element adds 1.0 (for true) or 0.0 (for false) to the
    total and 1 to the count: after any elements that validate and convert,
    the loop ends on it with the total reached plus that float and the
    count reached plus one; before any others, the loop goes on from these
    two; and the list of this one element is summarised with [count] 1 and
    [total_value] and [avg_value] equal to that float. *)
Theorem bool_value_is_counted (H : host) (d : gmap str value) (z : Z)
    (s : str) (b : bool) (total : float) (count : Z) :
  d !! lit "id" = Some (PyInt z) →
  d !! lit "name" = Some (PyStr s) → strip s ≠ [] →
  d !! lit "value" = Some (PyBool b) →
  let x := (if b then 1 else 0)%float in
  validate_item (PyDict d) = Ok ()
  ∧ process_items H [PyDict d] total count = Ok ((total + x)%float, count + 1)
  ∧ (∀ pre xs,
       Forall (λ item, validate_item item = Ok ()) pre →
       Forall2 (coerces H) pre xs →
       process_items H (pre ++ [PyDict d]) total count
       = Ok ((foldl PrimFloat.add total xs + x)%float,
             count + Z.of_nat (length pre) + 1))
  ∧ (∀ rest,
       process_items H (PyDict d :: rest) total count
       = process_items H rest (total + x)%float (count + 1))
  ∧ (∀ path,
       json_load H path = Ok (PyList [PyDict d]) →
       process_file H path = Ok (summary 1 x x)).
Proof.
  intros Hid Hname Hs Hv x.
  assert (validate_item (PyDict d) = Ok ()) as Hok.
  { apply validate_item_Ok_iff. by exists (PyInt z), s, (PyBool b). }
  assert (∀ rest t c,
            process_items H (PyDict d :: rest) t c
            = process_items H rest (t + x)%float (c + 1)) as Hstep.
  { intros rest t c.
    by rewrite (process_items_valid_step H (PyDict d) (PyBool b)). }
  split; [done|]. split; [by rewrite Hstep|].
  split; [|split; [by intros rest|]].
  - intros pre xs Hpre Hxs.
    rewrite (process_items_prefix H pre [PyDict d] xs) by done.
    by rewrite Hstep.
  - intros path Hload.
    rewrite (process_file_list H path _ Hload), Hstep.
    cbn [process_items mbind result_bind].
    rewrite bool_decide_eq_true_2 by done.
    rewrite float_truediv_count by done.
    unfold x. by destruct b.
Qed.

Lemma bool_value_is_counted_witness :
  process_items (host_of PyNone)
    [record (PyInt 7) (PyStr (lit "flag")) (PyBool true)] 5 3
  = Ok (6%float, 4).
Proof.
  assert (fields (PyInt 7) (PyStr (lit "flag")) (PyBool true) !! lit "id"
          = Some (PyInt 7)) as Hid by (vm_compute; reflexivity).
  assert (fields (PyInt 7) (PyStr (lit "flag")) (PyBool true) !! lit "name"
          = Some (PyStr (lit "flag"))) as Hname by (vm_compute; reflexivity).
  assert (strip (lit "flag") ≠ []) as Hs by (vm_compute; discriminate).
  assert (fields (PyInt 7) (PyStr (lit "flag")) (PyBool true) !! lit "value"
          = Some (PyBool true)) as Hv by (vm_compute; reflexivity).
  exact (proj1 (proj2 (bool_value_is_counted (host_of PyNone)
           (fields (PyInt 7) (PyStr (lit "flag")) (PyBool true))
           7 (lit "flag") true 5 3 Hid Hname Hs Hv))).
Defined.

(** C10: a mapping with a valid [id], [name] and [value] is accepted
    whatever other keys it holds, and the outcome of [process_file] depends
    on the elements' [value] fields alone: two lists of such mappings whose
    [value] fields agree position by position give the same summary. *)
Theorem summary_depends_on_values_only (H : host) (path1 path2 : str)
    (items1 items2 : list value) :
  json_load H path1 = Ok (PyList items1) →
  json_load H path2 = Ok (PyList items2) →
  Forall2 (λ a b, has_valid_fields a ∧ has_valid_fields b
                  ∧ field a (lit "value") = field b (lit "value"))
    items1 items2 →
  Forall (λ item, validate_item item = Ok ()) items1
  ∧ Forall (λ item, validate_item item = Ok ()) items2
  ∧ process_file H path1 = process_file H path2.
Proof.
  intros Hload1 Hload2 Hsame.
  split; [|split].
  - clear Hload1 Hload2.
    induction Hsame as [|a b l1 l2 (Ha & _ & _) _ IH]; [constructor|].
    constructor; [by apply validate_item_Ok_iff|done].
  - clear Hload1 Hload2.
    induction Hsame as [|a b l1 l2 (_ & Hb & _) _ IH]; [constructor|].
    constructor; [by apply validate_item_Ok_iff|done].
  - rewrite (process_file_list H _ _ Hload1), (process_file_list H _ _ Hload2).
    assert (∀ total count, process_items H items1 total count
                           = process_items H items2 total count) as ->; [|done].
    clear Hload1 Hload2.
    induction Hsame as [|a b l1 l2 (Ha & Hb & Hv) _ IH]; intros total count; [done|].
    apply validate_item_Ok_iff in Hb.
    pose proof (proj2 (validate_item_Ok_iff a) Ha) as Hoka.
    destruct Ha as (_ & _ & v & _ & _ & _ & _ & Hva & _).
    rewrite (process_items_valid_step H a v) by done.
    rewrite (process_items_valid_step H b v) by (by rewrite <- ?Hv).
    destruct (float_ (float_of_str H) v); [|done].
    cbn [mbind result_bind]. apply IH.
Qed.

Lemma summary_depends_on_values_only_witness :
  process_file
    (Host (λ p, if bool_decide (p = lit "a.json")
                then Ok (PyList [record (PyInt 1) (PyStr (lit "a")) (PyFloat 5)])
                else Ok (PyList [PyDict (<[lit "note" := PyNone]>
                                   (fields (PyBool false) (PyStr (lit "zz"))
                                      (PyFloat 5)))]))
          (float_of_str (host_of PyNone)) (json_dumps (host_of PyNone))
          (format_help (host_of PyNone)))
    (lit "b.json")
  = Ok (summary 1 5 5).
Proof.
  refine (eq_trans (eq_sym (proj2 (proj2 (summary_depends_on_values_only
            (Host (λ p, if bool_decide (p = lit "a.json")
                        then Ok (PyList [record (PyInt 1) (PyStr (lit "a"))
                                           (PyFloat 5)])
                        else Ok (PyList [PyDict (<[lit "note" := PyNone]>
                                           (fields (PyBool false)
                                              (PyStr (lit "zz")) (PyFloat 5)))]))
                  (float_of_str (host_of PyNone)) (json_dumps (host_of PyNone))
                  (format_help (host_of PyNone)))
            (lit "a.json") (lit "b.json") _ _ eq_refl eq_refl _)))) _).
  - repeat constructor.
    + exists (PyInt 1), (lit "a"), (PyFloat 5).
      repeat split; try (vm_compute; reflexivity). vm_compute. discriminate.
    + exists (PyBool false), (lit "zz"), (PyFloat 5).
      repeat split; try (vm_compute; reflexivity). vm_compute. discriminate.
  - vm_compute. reflexivity.
Defined.

(** ** Further properties of the code *)

(** *** Conversion of integers that fit in 64 bits *)



(** *** The Validator *)

(** Padding with whitespace does not change whether a string trims to
    nothing. *)
Lemma str_bool_strip_padding (pre s post : str) :
  Forall (λ c, isspace c = true) pre →
  Forall (λ c, isspace c = true) post →
  str_bool (strip (pre ++ s ++ post)) = str_bool (strip s).
Proof.
  intros Hpre Hpost.
  destruct (str_bool (strip s)) eqn:Hs.
  - apply str_bool_true_iff. apply str_bool_true_iff in Hs.
    rewrite strip_nil_iff in Hs |- *.
    rewrite !Forall_app. tauto.
  - destruct (str_bool (strip (pre ++ s ++ post))) eqn:Hp; [|done].
    apply str_bool_true_iff in Hp. destruct Hp.
    assert (strip s = []) as Hnil by (by destruct (strip s)).
    apply strip_nil_iff. apply strip_nil_iff in Hnil.
    by rewrite !Forall_app.
Qed.

(** X1: [validate_item] reads a mapping through the keys [id], [name] and
    [value] alone: two mappings that agree on these three lookups get the
    same verdict, the same failure included. *)
Theorem validate_item_reads_three_keys (d d' : gmap str value) :
  d !! lit "id" = d' !! lit "id" →
  d !! lit "name" = d' !! lit "name" →
  d !! lit "value" = d' !! lit "value" →
  validate_item (PyDict d) = validate_item (PyDict d').
Proof.
  intros Hid Hname Hv. rewrite !validate_item_dict.
  by rewrite Hid, Hname, Hv.
Qed.

Lemma validate_item_reads_three_keys_witness :
  validate_item
    (PyDict (<[lit "note" := PyNone]>
               (fields (PyFloat 1.5) (PyStr (lit "a")) (PyInt 1))))
  = validate_item (record (PyFloat 1.5) (PyStr (lit "a")) (PyInt 1)).
Proof.
  apply validate_item_reads_three_keys; vm_compute; reflexivity.
Defined.

(** X2: whatever the candidate, a failure of [validate_item] is the
    [ValueError] of one of its checks: the [KeyError] of a missing key, the
    [TypeError] of a value that cannot be subscripted and the
    [AttributeError] of [.strip()] on a non-string never escape. *)
Theorem validate_item_only_check_failures (item : value) (e : exn) :
  validate_item item = Raise e →
  (∃ c, e = check_error c)
  ∧ (∃ msg, e = ValueError msg)
  ∧ ∀ msg, e ≠ KeyError msg ∧ e ≠ TypeError msg ∧ e ≠ AttributeError msg.
Proof.
  intros Hr. destruct (validate_item_failure item e Hr) as [c ->].
  split; [by exists c|]. by destruct c; (split; [eexists|]).
Qed.

Lemma validate_item_only_check_failures_witness :
  ∃ msg, ValueError (lit "item must be an object") = ValueError msg.
Proof.
  exact (proj1 (proj2 (validate_item_only_check_failures (PyList [])
           (ValueError (lit "item must be an object")) eq_refl))).
Defined.

(** X3: whitespace around a [name] does not change the verdict: replacing
    the string at [name] by the same string between two runs of whitespace
    gives the same result of [validate_item]. *)
Theorem validate_item_name_padding (d : gmap str value) (pre s post : str) :
  d !! lit "name" = Some (PyStr s) →
  Forall (λ c, isspace c = true) pre →
  Forall (λ c, isspace c = true) post →
  validate_item (PyDict (<[lit "name" := PyStr (pre ++ s ++ post)]> d))
  = validate_item (PyDict d).
Proof.
  intros Hname Hpre Hpost. rewrite !validate_item_dict.
  rewrite lookup_insert_eq, Hname.
  rewrite !lookup_insert_ne by (vm_compute; discriminate).
  by rewrite str_bool_strip_padding.
Qed.

Lemma validate_item_name_padding_witness :
  validate_item
    (PyDict (<[lit "name" := PyStr (lit "  " ++ lit "a b" ++ lit " ")]>
               (fields (PyInt 1) (PyStr (lit "a b")) (PyInt 1))))
  = validate_item (record (PyInt 1) (PyStr (lit "a b")) (PyInt 1)).
Proof.
  apply validate_item_name_padding.
  - vm_compute. reflexivity.
  - vm_compute. repeat constructor.
  - vm_compute. repeat constructor.
Defined.

(** *** The Runner *)

Section RunnerMore.

Variable H : host.

(** A loop that ends well has validated and converted every element. *)
Lemma process_items_Ok_inv (items : list value) (total total' : float)
    (count count' : Z) :
  process_items H items total count = Ok (total', count') →
  Forall (λ item, validate_item item = Ok ()) items
  ∧ ∃ xs, Forall2 (coerces H) items xs
          ∧ total' = foldl PrimFloat.add total xs
          ∧ count' = count + Z.of_nat (length items).
Proof.
  revert total count.
  induction items as [|item rest IH]; intros total count Hr.
  - injection Hr as <- <-. split; [constructor|].
    exists []. split; [constructor|]. split; [done|]. cbn [length]. lia.
  - destruct (validate_item item) as [[]|e] eqn:Hitem;
      [|by rewrite (process_items_invalid_step H item rest _ _ e) in Hr].
    pose proof (proj1 (validate_item_Ok_iff item) Hitem)
      as (_ & _ & v & _ & _ & _ & _ & Hv & _).
    rewrite (process_items_valid_step H item v) in Hr by done.
    destruct (float_ (float_of_str H) v) as [x|] eqn:Hx; [|done].
    cbn [mbind result_bind] in Hr.
    destruct (IH _ _ Hr) as (Hrest & xs & Hxs & -> & ->).
    split; [by constructor|].
    exists (x :: xs). split; [constructor; [by exists v|done]|].
    split; [done|]. cbn [length]. lia.
Qed.

(** Whether the division by the count goes through depends on the count
    alone. *)
Lemma float_truediv_int_success (a a' x : float) (n : Z) :
  float_truediv_int a n = Ok x → ∃ x', float_truediv_int a' n = Ok x'.
Proof.
  unfold float_truediv_int. destruct (int_to_float n) as [b|]; [|done].
  cbn [mbind result_bind]. destruct (b =? 0)%float; [done|]. eauto.
Qed.

(** [process_file] on a list whose elements validate and convert. *)
Lemma process_file_of_converted (path : str) (items : list value)
    (xs : list float) :
  json_load H path = Ok (PyList items) →
  Forall (λ item, validate_item item = Ok ()) items →
  Forall2 (coerces H) items xs →
  process_file H path =
    avg ← (if bool_decide (Z.of_nat (length items) ≠ 0)
           then float_truediv_int (float_sum xs) (Z.of_nat (length items))
           else Ok 0%float);
    Ok (summary (Z.of_nat (length items)) (float_sum xs) avg).
Proof.
  intros Hload Hvalid Hxs.
  rewrite (process_file_list H path items Hload).
  rewrite <- (app_nil_r items) at 1.
  rewrite (process_items_prefix H items [] xs) by done.
  cbn [process_items mbind result_bind]. by rewrite Z.add_0_l.
Qed.

End RunnerMore.

Lemma Forall2_of_Forall_exists {A B} (P : A → B → Prop) (l : list A) :
  Forall (λ a, ∃ b, P a b) l → ∃ k, Forall2 P l k.
Proof.
  induction 1 as [|a l [b Hb] _ [k Hk]]; [by exists []|].
  exists (b :: k). by constructor.
Qed.

Lemma Forall_exists_of_Forall2 {A B} (P : A → B → Prop) (l : list A)
    (k : list B) :
  Forall2 P l k → Forall (λ a, ∃ b, P a b) l.
Proof. induction 1; constructor; eauto. Qed.

(** X4: the loop composes over concatenation: running it on [l1 ++ l2] is
    running it on [l1] and then, from the total and count reached, on [l2];
    a failure in [l1] is the failure of the whole. *)
Theorem process_items_app (H : host) (l1 l2 : list value) (total : float)
    (count : Z) :
  process_items H (l1 ++ l2) total count =
    '(total1, count1) ← process_items H l1 total count;
    process_items H l2 total1 count1.
Proof.
  revert total count. induction l1 as [|item l1 IH]; intros total count; [done|].
  rewrite <- app_comm_cons. cbn [process_items].
  destruct (validate_item item) as [[]|]; [|done].
  cbn [mbind result_bind].
  destruct (getitem item (lit "value")) as [v|]; [|done].
  cbn [mbind result_bind].
  destruct (float_ (float_of_str H) v) as [x|]; [|done].
  cbn [mbind result_bind]. apply IH.
Qed.



(** X6: whether a list is summarised does not depend on the order of its
    elements, nor does the count: if [process_file] returns a summary for a
    list, it returns one, with the same [count], for every permutation of
    it (the total, a floating-point sum, may differ). *)
Theorem process_file_permutation (H : host) (path1 path2 : str)
    (items1 items2 : list value) (s1 : value) :
  json_load H path1 = Ok (PyList items1) →
  json_load H path2 = Ok (PyList items2) →
  items1 ≡ₚ items2 →
  process_file H path1 = Ok s1 →
  ∃ s2, process_file H path2 = Ok s2
        ∧ field s1 (lit "count") = Some (PyInt (Z.of_nat (length items1)))
        ∧ field s2 (lit "count") = Some (PyInt (Z.of_nat (length items1))).
Proof.
  intros Hload1 Hload2 Hperm Hr1.
  pose proof Hr1 as Hr. rewrite (process_file_list H _ _ Hload1) in Hr.
  destruct (process_items H items1 0 0) as [[total count]|] eqn:Hloop; [|done].
  destruct (process_items_Ok_inv H items1 _ _ _ _ Hloop)
    as (Hvalid & xs & Hxs & -> & ->).
  cbn [mbind result_bind] in Hr. rewrite Z.add_0_l in Hr.
  assert (Forall (λ item, validate_item item = Ok ()) items2) as Hvalid2
    by (by rewrite <- Hperm).
  destruct (Forall2_of_Forall_exists (coerces H) items2) as [ys Hys].
  { rewrite <- Hperm. by apply (Forall_exists_of_Forall2 _ _ xs). }
  rewrite (process_file_of_converted H path2 items2 ys) by done.
  rewrite <- (Permutation_length Hperm).
  destruct (bool_decide (Z.of_nat (length items1) ≠ 0)).
  - destruct (float_truediv_int _ _) as [avg|] eqn:Hdiv; [|done].
    destruct (float_truediv_int_success _ (float_sum ys) _ _ Hdiv) as [avg2 ->].
    injection Hr as <-. by eexists.
  - injection Hr as <-. by eexists.
Qed.

Lemma process_file_permutation_witness :
  ∃ s2,
    process_file
      (Host (λ p, if bool_decide (p = lit "a.json")
                  then Ok (PyList [record (PyInt 1) (PyStr (lit "a")) (PyFloat 5);
                                   record (PyInt 2) (PyStr (lit "b")) (PyInt 15)])
                  else Ok (PyList [record (PyInt 2) (PyStr (lit "b")) (PyInt 15);
                                   record (PyInt 1) (PyStr (lit "a")) (PyFloat 5)]))
            (float_of_str (host_of PyNone)) (json_dumps (host_of PyNone))
            (format_help (host_of PyNone)))
      (lit "b.json") = Ok s2
    ∧ field (summary 2 20 10) (lit "count") = Some (PyInt 2)
    ∧ field s2 (lit "count") = Some (PyInt 2).
Proof.
  refine (process_file_permutation
            (Host (λ p, if bool_decide (p = lit "a.json")
                        then Ok (PyList [record (PyInt 1) (PyStr (lit "a")) (PyFloat 5);
                                         record (PyInt 2) (PyStr (lit "b")) (PyInt 15)])
                        else Ok (PyList [record (PyInt 2) (PyStr (lit "b")) (PyInt 15);
                                         record (PyInt 1) (PyStr (lit "a")) (PyFloat 5)]))
                  (float_of_str (host_of PyNone)) (json_dumps (host_of PyNone))
                  (format_help (host_of PyNone)))
            (lit "a.json") (lit "b.json") _ _ (summary 2 20 10)
            eq_refl eq_refl _ _).
  - apply perm_swap.
  - vm_compute. reflexivity.
Defined.

(** X7: when the file cannot be opened or decoded, the exception of the
    load is the exception of [process_file], unchanged, and the run prints
    [Error: ] followed by its text on standard error, nothing on standard
    output, and exits with code 1. *)
Theorem process_file_load_error (H : host) (args : namespace) (e : exn) :
  command args = lit "process" →
  json_load H (input args) = Raise e →
  process_file H (input args) = Raise e
  ∧ main H args = Outcome 1 [] [lit "Error: " ++ exn_str e].
Proof.
  intros Hcmd Hload.
  assert (process_file H (input args) = Raise e) as Hr
    by (unfold process_file; by rewrite Hload).
  split; [done|]. by apply main_raise.
Qed.

Lemma process_file_load_error_witness :
  main host_without_files process_args
  = Outcome 1 []
      [lit "Error: [Errno 2] No such file or directory: 'data.json'"].
Proof.
  exact (proj2 (process_file_load_error host_without_files process_args
           (FileNotFoundError
              (lit "[Errno 2] No such file or directory: 'data.json'"))
           eq_refl eq_refl)).
Defined.





(** The loop never hands a [str] to [float()]: it does not depend on how
    the host would parse one. *)
Lemma process_items_host_independent (H H' : host) (items : list value)
    (total : float) (count : Z) :
  process_items H items total count = process_items H' items total count.
Proof.
  revert total count.
  induction items as [|item rest IH]; intros total count; [done|].
  destruct (validate_item item) as [[]|e] eqn:Hitem.
  - pose proof (proj1 (validate_item_Ok_iff item) Hitem)
      as (_ & _ & v & _ & _ & _ & _ & Hv & Tv).
    rewrite (process_items_valid_step H item v),
      (process_items_valid_step H' item v) by done.
    rewrite (float_number (float_of_str H) (float_of_str H') v Tv).
    destruct (float_ (float_of_str H') v); [|done].
    cbn [mbind result_bind]. apply IH.
  - by rewrite (process_items_invalid_step H item rest _ _ e),
      (process_items_invalid_step H' item rest _ _ e).
Qed.

(** X11: every summary that [process_file] returns is a dict with exactly
    the keys [count], [total_value] and [avg_value], holding a non-negative
    integer and two floats. *)
Theorem process_file_summary_shape (H : host) (path : str) (s : value) :
  process_file H path = Ok s →
  ∃ (d : gmap str value) (n : nat) (total avg : float),
    s = PyDict d
    ∧ d !! lit "count" = Some (PyInt (Z.of_nat n))
    ∧ d !! lit "total_value" = Some (PyFloat total)
    ∧ d !! lit "avg_value" = Some (PyFloat avg)
    ∧ ∀ k, k ≠ lit "count" → k ≠ lit "total_value" → k ≠ lit "avg_value" →
           d !! k = None.
Proof.
  unfold process_file. intros Hr.
  destruct (json_load H path) as [data|]; [|done].
  cbn [mbind result_bind] in Hr.
  destruct data as [| | | | |items|]; try done.
  destruct (process_items H items 0 0) as [[total count]|] eqn:Hloop; [|done].
  destruct (process_items_Ok_inv H items _ _ _ _ Hloop)
    as (_ & xs & _ & _ & ->).
  cbn [mbind result_bind] in Hr. rewrite Z.add_0_l in Hr.
  destruct (if bool_decide _ then _ else _) as [avg|]; [|done].
  injection Hr as <-. unfold summary.
  eexists _, (length items), total, avg. split; [done|].
  split; [by rewrite lookup_insert_eq|].
  split.
  { rewrite lookup_insert_ne by (vm_compute; discriminate).
    by rewrite lookup_insert_eq. }
  split.
  { rewrite !lookup_insert_ne by (vm_compute; discriminate).
    by rewrite lookup_insert_eq. }
  intros k Hc Ht Ha. by rewrite !lookup_insert_ne.
Qed.

Lemma process_file_summary_shape_witness :
  ∃ (d : gmap str value) (n : nat) (total avg : float),
    summary 0 0 0 = PyDict d
    ∧ d !! lit "count" = Some (PyInt (Z.of_nat n))
    ∧ d !! lit "total_value" = Some (PyFloat total)
    ∧ d !! lit "avg_value" = Some (PyFloat avg)
    ∧ ∀ k, k ≠ lit "count" → k ≠ lit "total_value" → k ≠ lit "avg_value" →
           d !! k = None.
Proof.
  exact (process_file_summary_shape (host_of (PyList [])) (lit "data.json")
           (summary 0 0 0) eq_refl).
Defined.

(** X12: [process_file] uses its host only to load the file: [float()] is
    never applied to a string, so a [value] given as text is never parsed
    as a number, and neither [json.dumps] nor the help text plays a part in
    the result. *)
Theorem process_file_host_independent (load : str → result value)
    (fs fs' : str → result float) (jd jd' : value → str) (h h' : str)
    (path : str) :
  process_file (Host load fs jd h) path = process_file (Host load fs' jd' h') path.
Proof.
  unfold process_file. cbn [json_load].
  destruct (load path) as [data|]; [|done].
  cbn [mbind result_bind].
  destruct data as [| | | | |items|]; try done.
  by rewrite (process_items_host_independent _ (Host load fs' jd' h')).
Qed.
